(** * aeron_counter.c: the client side counter handle

    A shallow embedding of [aeron-client/src/main/c/aeron_counter.c]
    ([aeron_counter_create], [aeron_counter_delete], [aeron_counter_close])
    over an explicit memory state, with the routines the file calls but
    does not define taken as an interface ([Externals]). *)

From stdpp Require Import gmap strings pretty.

Local Open Scope Z_scope.

(** ** Pointers and objects *)

(** A pointer is an address; the null pointer is address 0. *)
Definition ptr := N.
Definition NULL : ptr := 0%N.

(** Modelled from the spec: the enumeration of resource kinds is declared in
    a header that is not part of the sources.  The counter kind is the one
    [aeron_counter_create] stores; the specification (3, Resource Handle)
    lists the kinds Counter, Publication and Subscription. *)
Inductive aeron_client_managed_resource_type : Set :=
  | AERON_CLIENT_TYPE_PUBLICATION
  | AERON_CLIENT_TYPE_SUBSCRIPTION
  | AERON_CLIENT_TYPE_COUNTER.

(** The command base a counter starts with; [type] is the one field of it
    the source file touches. *)
Record aeron_client_command_base_t : Set := mk_command_base {
  type : aeron_client_managed_resource_type
}.

(** [aeron_counter_t], with the fields the source file touches. *)
Record aeron_counter_t : Set := mk_counter {
  command_base : aeron_client_command_base_t;
  counter_addr : ptr;          (* int64_t *, into the driver's counters file *)
  conductor : ptr;             (* aeron_client_conductor_t * *)
  registration_id : Z;         (* int64_t *)
  counter_id : Z;              (* int32_t *)
  is_closed : bool
}.

(** ** The conductor's command channel *)

(** Modelled from the spec: the commands of the command channel (3,
    Command): an opcode and the registration id the command is about. *)
Inductive opcode : Set := AddCounter | RemoveCounter | AddPublication.

Record command : Set := mk_command {
  cmd_opcode : opcode;
  cmd_registration_id : Z
}.

(** Modelled from the spec: [aeron_client_conductor_t] is declared in
    aeron_client_conductor.h, which is not part of the sources.  The
    specification (4.2) gives the conductor a bounded command channel:
    the commands queued so far, oldest first, and the channel's capacity. *)
Record aeron_client_conductor_t : Set := mk_conductor {
  command_queue : list command;
  capacity : nat
}.

(** ** Program state *)

Record state : Type := mk_state {
  counters : gmap N aeron_counter_t;            (* live counter blocks *)
  handles : gmap N ptr;                         (* cells of type aeron_counter_t * *)
  conductors : gmap N aeron_client_conductor_t; (* live conductors *)
  errno : Z;
  aeron_errcode : Z;                            (* last error recorded by aeron_set_err *)
  aeron_errmsg : string
}.

Definition with_counters (f : gmap N aeron_counter_t → gmap N aeron_counter_t)
    (s : state) : state :=
  mk_state (f (counters s)) (handles s) (conductors s)
           (errno s) (aeron_errcode s) (aeron_errmsg s).

Definition with_handles (f : gmap N ptr → gmap N ptr) (s : state) : state :=
  mk_state (counters s) (f (handles s)) (conductors s)
           (errno s) (aeron_errcode s) (aeron_errmsg s).

Definition with_conductors
    (f : gmap N aeron_client_conductor_t → gmap N aeron_client_conductor_t)
    (s : state) : state :=
  mk_state (counters s) (handles s) (f (conductors s))
           (errno s) (aeron_errcode s) (aeron_errmsg s).

Definition with_error (errcode : Z) (msg : string) (s : state) : state :=
  mk_state (counters s) (handles s) (conductors s) (errno s) errcode msg.

(** ** A state monad with undefined behaviour

    A C routine maps a state to a result and a new state, or has no defined
    behaviour ([None]): a load or store through a pointer that designates no
    live object. *)
Definition M (A : Type) : Type := state → option (A * state).

#[global] Instance M_ret : MRet M := λ A a s, Some (a, s).
#[global] Instance M_bind : MBind M := λ A B f m s,
  match m s with
  | Some (a, s') => f a s'
  | None => None
  end.

Definition gets {A} (f : state → A) : M A := λ s, Some (f s, s).
Definition modify (f : state → state) : M unit := λ s, Some (tt, f s).

(** The object a pointer designates: none for the null pointer and for an
    address that holds no live object. *)
Definition deref {A} (m : gmap N A) (p : ptr) : option A :=
  if (p =? NULL)%N then None else m !! p.

(** [*p = v] for a cell [p] of type [aeron_counter_t *]. *)
Definition store_handle (p : ptr) (v : ptr) : M unit := λ s,
  match deref (handles s) p with
  | Some _ => Some (tt, with_handles <[p := v]> s)
  | None => None
  end.

(** [p->field] and [p->field = v] for [p] of type [aeron_counter_t *]. *)
Definition load_counter {A} (p : ptr) (field : aeron_counter_t → A) : M A := λ s,
  match deref (counters s) p with
  | Some c => Some (field c, s)
  | None => None
  end.

Definition store_counter (p : ptr) (upd : aeron_counter_t → aeron_counter_t) : M unit := λ s,
  match deref (counters s) p with
  | Some c => Some (tt, with_counters <[p := upd c]> s)
  | None => None
  end.

Definition set_type (v : aeron_client_managed_resource_type) (c : aeron_counter_t) :=
  mk_counter (mk_command_base v) (counter_addr c) (conductor c)
             (registration_id c) (counter_id c) (is_closed c).
Definition set_counter_addr (v : ptr) (c : aeron_counter_t) :=
  mk_counter (command_base c) v (conductor c)
             (registration_id c) (counter_id c) (is_closed c).
Definition set_conductor (v : ptr) (c : aeron_counter_t) :=
  mk_counter (command_base c) (counter_addr c) v
             (registration_id c) (counter_id c) (is_closed c).
Definition set_registration_id (v : Z) (c : aeron_counter_t) :=
  mk_counter (command_base c) (counter_addr c) (conductor c)
             v (counter_id c) (is_closed c).
Definition set_counter_id (v : Z) (c : aeron_counter_t) :=
  mk_counter (command_base c) (counter_addr c) (conductor c)
             (registration_id c) v (is_closed c).
Definition set_is_closed (v : bool) (c : aeron_counter_t) :=
  mk_counter (command_base c) (counter_addr c) (conductor c)
             (registration_id c) (counter_id c) v.

(** ** The routines the file calls but does not define *)

(** What a call of [aeron_alloc] answers: its return code, the pointer it
    stores through its first argument, the content of the block the pointer
    designates, and the value it leaves in [errno]. *)
Record alloc_result : Set := mk_alloc_result {
  alloc_rc : Z;
  alloc_ptr : ptr;
  alloc_block : aeron_counter_t;
  alloc_errno : Z
}.

(** [aeron_alloc], [strerror] and
    [aeron_client_conductor_async_close_counter] are declared in headers
    that are not part of the sources and are taken as given: the allocator
    as an oracle that answers from the state it is called in, the
    conductor's routine as any state transformer. *)
Class Externals : Type := {
  aeron_alloc : state → alloc_result;
  strerror : Z → string;
  aeron_client_conductor_async_close_counter : ptr → ptr → M Z
}.

(** The state after the allocator has answered [r]: [errno] is what the
    allocator left, and on success the block is live at the address
    returned (a null address designates no block). *)
Definition allocated (r : alloc_result) (s : state) : state :=
  mk_state
    (if (alloc_rc r <? 0) || (alloc_ptr r =? NULL)%N then counters s
     else <[alloc_ptr r := alloc_block r]> (counters s))
    (handles s) (conductors s) (alloc_errno r) (aeron_errcode s) (aeron_errmsg s).

(** [aeron_alloc((void ** )&p, sizeof(aeron_counter_t))], yielding the return
    code and [p]. *)
Definition call_aeron_alloc `{Externals} : M (Z * ptr) := λ s,
  let r := aeron_alloc s in
  Some ((alloc_rc r, alloc_ptr r), allocated r s).

(** Modelled from the spec: [aeron_set_err] is declared in
    util/aeron_error.h, which is not part of the sources.  It records the
    error that the failing call surfaces to its caller: the error code and
    the formatted description (7, AllocationError). *)
Definition aeron_set_err (errcode : Z) (msg : string) : M unit :=
  modify (with_error errcode msg).

(** Modelled from the spec: [aeron_free] is declared in util/aeron_alloc.h,
    which is not part of the sources.  It releases the block a pointer
    designates (4.1, delete: releases the handle's own memory); releasing a
    block that is not live, such as one released before, is undefined (4.1:
    invoking delete twice on the same handle is undefined); a null pointer
    designates no block and nothing is released, as with the C library's
    free. *)
Definition aeron_free (p : ptr) : M unit := λ s,
  if (p =? NULL)%N then Some (tt, s)
  else match counters s !! p with
       | Some _ => Some (tt, with_counters (delete p) s)
       | None => None
       end.

(** Modelled from the spec: the submission of a command to the conductor's
    command channel (4.2): [submit(command) -> Accepted | QueueFullError];
    the channel is bounded, an accepted command is queued behind the
    commands already there, and a full channel refuses the command at once.
    Accepted is 0 and the error is -1, as for the other routines. *)
Definition submit (cmd : command) (k : aeron_client_conductor_t)
    : Z * aeron_client_conductor_t :=
  if (length (command_queue k) <? capacity k)%nat
  then (0, mk_conductor (command_queue k ++ [cmd]) (capacity k))
  else (-1, k).

(** Modelled from the spec: the submission step of the close path: the
    asynchronous close request of a counter, the command [RemoveCounter]
    under the counter's registration id, is handed to the command channel of
    the conductor (4.2, scenario 2), and whether the channel accepted it is
    returned.  This is the step alone, without the lifecycle guard that 4.1
    puts before it. *)
Definition submit_close_counter (conductor counter : ptr) : M Z := λ s,
  match deref (counters s) counter, deref (conductors s) conductor with
  | Some c, Some k =>
      let '(rc, k') := submit (mk_command RemoveCounter (registration_id c)) k in
      Some (rc, with_conductors <[conductor := k']> s)
  | _, _ => None
  end.

(** Modelled from the spec: [aeron_client_conductor_async_close_counter] is
    declared in aeron_client_conductor.h, which is not part of the sources.
    The close path of 4.1: the handle is moved from Active to CloseRequested,
    and when it is already beyond Active the call returns success as a
    no-op; otherwise the close request is submitted to the conductor's
    command channel and the result of the submission is returned.  The
    lifecycle field of a handle is the flag [is_closed] of the source: unset
    is Active, set is beyond Active. *)
Definition close_request_counter (conductor counter : ptr) : M Z := λ s,
  match deref (counters s) counter with
  | Some c =>
      if is_closed c then Some (0, s)
      else submit_close_counter conductor counter
             (with_counters <[counter := set_is_closed true c]> s)
  | None => None
  end.

(** The text ["aeron_counter_create (%d): %s"] filled in. *)
Definition create_err_text (errcode : Z) (description : string) : string :=
  "aeron_counter_create (" +:+ pretty errcode +:+ "): " +:+ description.

(** ** aeron_counter.c *)

Section aeron_counter.
Context `{Externals}.

Definition aeron_counter_create (counter : ptr) (conductor : ptr)
    (registration_id : Z) (counter_id : Z) (counter_addr : ptr) : M Z :=
  store_handle counter NULL;;
  '(rc, _counter) ← call_aeron_alloc;
  if rc <? 0 then
    errcode ← gets errno;
    aeron_set_err errcode (create_err_text errcode (strerror errcode));;
    mret (-1)
  else
    store_counter _counter (set_type AERON_CLIENT_TYPE_COUNTER);;
    store_counter _counter (set_counter_addr counter_addr);;
    store_counter _counter (set_conductor conductor);;
    store_counter _counter (set_registration_id registration_id);;
    store_counter _counter (set_counter_id counter_id);;
    store_counter _counter (set_is_closed false);;
    store_handle counter _counter;;
    mret 0.

Definition aeron_counter_delete (counter : ptr) : M Z :=
  aeron_free counter;;
  mret 0.

Definition aeron_counter_close (counter : ptr) : M Z :=
  if negb (counter =? NULL)%N then
    c ← load_counter counter conductor;
    aeron_client_conductor_async_close_counter c counter
  else mret 0.

End aeron_counter.

(** ** Notions the statements use *)

(** The counter that [aeron_counter_create] leaves in the block. *)
Definition initialised (conductor : ptr) (registration_id counter_id : Z)
    (counter_addr : ptr) : aeron_counter_t :=
  mk_counter (mk_command_base AERON_CLIENT_TYPE_COUNTER) counter_addr conductor
             registration_id counter_id false.

(** The state in which the allocator is called: the caller's cell already
    holds the null pointer. *)
Definition nulled (counter : ptr) (s : state) : state :=
  with_handles <[counter := NULL]> s.

(** The identifying fields of a handle. *)
Definition identity (c : aeron_counter_t) : Z * Z * ptr * ptr :=
  (registration_id c, counter_id c, counter_addr c, conductor c).

(** A routine keeps identities when every counter that is live after it was
    live before it, with the same identifying fields. *)
Definition keeps_identity {A} (m : M A) : Prop :=
  ∀ s a s' p c',
    m s = Some (a, s') → counters s' !! p = Some c' →
    ∃ c, counters s !! p = Some c ∧ identity c = identity c'.

(** The operations of the file on an existing handle. *)
Inductive handle_op : Set :=
  | Close (counter : ptr)
  | Delete (counter : ptr).

Section operations.
Context `{Externals}.

Definition run_op (o : handle_op) : M Z :=
  match o with
  | Close counter => aeron_counter_close counter
  | Delete counter => aeron_counter_delete counter
  end.

Fixpoint run_ops (os : list handle_op) : M (list Z) :=
  match os with
  | [] => mret []
  | o :: os' => rc ← run_op o; rcs ← run_ops os'; mret (rc :: rcs)
  end.
End operations.




(** A routine keeps counters when every counter that is live after it was
    live before it, with every field as it was. *)
Definition keeps_counters {A} (m : M A) : Prop :=
  ∀ s a s' p c,
    m s = Some (a, s') → counters s' !! p = Some c → counters s !! p = Some c.

(** Every live counter is of kind COUNTER and is not closed. *)
Definition all_open (s : state) : Prop :=
  ∀ p c,
    counters s !! p = Some c →
    type (command_base c) = AERON_CLIENT_TYPE_COUNTER ∧ is_closed c = false.

(** A call of one of the three routines of the file. *)
Inductive call : Set :=
  | CallCreate (counter conductor_ : ptr) (registration_id_ counter_id_ : Z)
               (counter_addr_ : ptr)
  | CallClose (counter : ptr)
  | CallDelete (counter : ptr).

Section calls.
Context `{Externals}.

Definition run_call (k : call) : M Z :=
  match k with
  | CallCreate counter conductor_ registration_id_ counter_id_ counter_addr_ =>
      aeron_counter_create counter conductor_ registration_id_ counter_id_
                           counter_addr_
  | CallClose counter => aeron_counter_close counter
  | CallDelete counter => aeron_counter_delete counter
  end.

Fixpoint run_calls (ks : list call) : M (list Z) :=
  match ks with
  | [] => mret []
  | k :: ks' => rc ← run_call k; rcs ← run_calls ks'; mret (rc :: rcs)
  end.
End calls.

(** ** A concrete environment

    An allocator over a pool of [limit] blocks that hands out zeroed blocks
    above the highest live address and fails with [ENOMEM] once the pool is
    used up.  [pool_externals] pairs it with a conductor routine that only
    submits the close request, [guarded_externals] with the close path of
    the specification. *)

Definition ENOMEM : Z := 12.

Definition zeroed : aeron_counter_t :=
  mk_counter (mk_command_base AERON_CLIENT_TYPE_PUBLICATION) NULL NULL 0 0 false.

Definition next_block (s : state) : ptr :=
  (map_fold (λ k _ acc, N.max k acc) 0 (counters s) + 1)%N.

Definition pool_alloc (limit : nat) (s : state) : alloc_result :=
  if (size (counters s) <? limit)%nat
  then mk_alloc_result 0 (next_block s) zeroed (errno s)
  else mk_alloc_result (-1) NULL zeroed ENOMEM.

Definition errno_text (e : Z) : string :=
  if e =? ENOMEM then "Cannot allocate memory" else "Unknown error".

Definition pool_externals (limit : nat) : Externals :=
  {| aeron_alloc := pool_alloc limit;
     strerror := errno_text;
     aeron_client_conductor_async_close_counter := submit_close_counter |}.

Definition guarded_externals (limit : nat) : Externals :=
  {| aeron_alloc := pool_alloc limit;
     strerror := errno_text;
     aeron_client_conductor_async_close_counter := close_request_counter |}.

(** A client with one conductor at address 16, whose channel holds up to
    [cap] commands, and one cell for a counter handle at address 32. *)
Definition client (cap : nat) : state :=
  mk_state ∅ {[ 32%N := 99%N ]} {[ 16%N := mk_conductor [] cap ]} 0 0 "".

(** The state after the counter of scenario 1 has been created: registration
    id 42, counter id 7, address 4096, conductor 16, handle 1 in cell 32. *)
Definition scenario (cap : nat) : state :=
  mk_state {[ 1%N := initialised 16%N 42 7 4096%N ]} {[ 32%N := 1%N ]}
           {[ 16%N := mk_conductor [] cap ]} 0 0 "".


(** The state after a create on [client 2] that the allocator refused. *)
Definition refused : state :=
  mk_state ∅ {[ 32%N := NULL ]} {[ 16%N := mk_conductor [] 2 ]} ENOMEM ENOMEM
           "aeron_counter_create (12): Cannot allocate memory".


(** A client like [client], with a second cell for a handle at address 40. *)
Definition client2 (cap : nat) : state :=
  mk_state ∅ {[ 32%N := 99%N; 40%N := 98%N ]} {[ 16%N := mk_conductor [] cap ]}
           0 0 "".

(** ** Running the monad *)

Lemma bind_run {A B} (m : M A) (f : A → M B) s a s' :
  m s = Some (a, s') → (m ≫= f) s = f a s'.
Proof. intros E. unfold mbind, M_bind. by rewrite E. Qed.

Lemma bind_undefined {A B} (m : M A) (f : A → M B) s :
  m s = None → (m ≫= f) s = None.
Proof. intros E. unfold mbind, M_bind. by rewrite E. Qed.

Lemma bind_inv {A B} (m : M A) (f : A → M B) s b s2 :
  (m ≫= f) s = Some (b, s2) →
  ∃ a s1, m s = Some (a, s1) ∧ f a s1 = Some (b, s2).
Proof.
  unfold mbind, M_bind. destruct (m s) as [[a s1]|] eqn:E; [|done].
  intros Hf. by exists a, s1.
Qed.

Lemma deref_Some {A} (m : gmap N A) p x :
  deref m p = Some x ↔ p ≠ NULL ∧ m !! p = Some x.
Proof.
  unfold deref. destruct (N.eqb_spec p NULL) as [Hp|Hp].
  - split; [done | by intros [? _]].
  - split; [done | by intros [_ ?]].
Qed.

Lemma deref_insert_eq {A} (m : gmap N A) p x :
  p ≠ NULL → deref (<[p := x]> m) p = Some x.
Proof. intros Hp. apply deref_Some. by rewrite lookup_insert_eq. Qed.

Lemma store_handle_run p v s old :
  deref (handles s) p = Some old →
  store_handle p v s = Some (tt, with_handles <[p := v]> s).
Proof. intros E. unfold store_handle. by rewrite E. Qed.

Lemma store_counter_run p upd s c :
  deref (counters s) p = Some c →
  store_counter p upd s = Some (tt, with_counters <[p := upd c]> s).
Proof. intros E. unfold store_counter. by rewrite E. Qed.

Lemma deref_stored p c s :
  p ≠ NULL → deref (counters (with_counters <[p := c]> s)) p = Some c.
Proof. intros Hp. by apply deref_insert_eq. Qed.

(** ** aeron_counter_close *)

(** C2.  Closing the null handle returns 0 at once and leaves the whole
    state as it was, the command channels of all conductors included,
    whatever the conductor's close routine is: it is not called. *)
Theorem close_null_is_noop `{Externals} (s : state) :
  aeron_counter_close NULL s = Some (0, s).
Proof. reflexivity. Qed.

(** C5.  For a handle that designates a live counter [c] (so it is not
    null), close is the call of the conductor's asynchronous close routine
    on [c]'s conductor and the handle: the same result and the same state,
    with nothing computed besides. *)
Theorem close_is_conductor_submission `{Externals} (counter : ptr)
    (c : aeron_counter_t) (s : state) :
  deref (counters s) counter = Some c →
  aeron_counter_close counter s =
  aeron_client_conductor_async_close_counter (conductor c) counter s.
Proof.
  intros Hc. pose proof Hc as [Hp _]%deref_Some.
  unfold aeron_counter_close.
  destruct (N.eqb_spec counter NULL) as [?|_]; [done|]. simpl.
  unfold mbind, M_bind, load_counter. by rewrite Hc.
Qed.

(** ** aeron_counter_delete *)

(** C6.  Delete of a handle that designates a live counter returns 0 and
    releases the counter's block, whatever the counter's fields are (closed
    or not) and whatever the conductors hold: nothing but the pointer is
    consulted, and nothing but the block changes. *)
Theorem delete_releases_unconditionally `{Externals} (counter : ptr)
    (c : aeron_counter_t) (s : state) :
  deref (counters s) counter = Some c →
  aeron_counter_delete counter s = Some (0, with_counters (delete counter) s)
  ∧ deref (counters (with_counters (delete counter) s)) counter = None.
Proof.
  intros [Hp Hc]%deref_Some. split.
  - unfold aeron_counter_delete, aeron_free, mbind, M_bind.
    destruct (N.eqb_spec counter NULL) as [?|_]; [done|]. by rewrite Hc.
  - unfold deref. destruct (N.eqb_spec counter NULL) as [?|_]; [done|].
    apply lookup_delete_eq.
Qed.

(** C10.  Delete of the null handle returns 0 and leaves the state as it
    was: releasing the null pointer releases nothing and is defined. *)
Theorem delete_null_is_noop `{Externals} (s : state) :
  aeron_counter_delete NULL s = Some (0, s).
Proof. reflexivity. Qed.

(** ** aeron_counter_create *)

(** What a call of [aeron_counter_create] does, case by case. *)
Lemma create_run `{Externals} counter cond rid cid addr s :
  aeron_counter_create counter cond rid cid addr s =
  match deref (handles s) counter with
  | None => None
  | Some _ =>
      let r := aeron_alloc (nulled counter s) in
      let s2 := allocated r (nulled counter s) in
      if alloc_rc r <? 0 then
        Some (-1, with_error (alloc_errno r)
                    (create_err_text (alloc_errno r) (strerror (alloc_errno r))) s2)
      else if (alloc_ptr r =? NULL)%N then None
      else Some (0, with_handles <[counter := alloc_ptr r]>
                      (with_counters <[alloc_ptr r := initialised cond rid cid addr]> s2))
  end.
Proof.
  unfold aeron_counter_create.
  destruct (deref (handles s) counter) as [old|] eqn:Hcell.
  2:{ apply bind_undefined. unfold store_handle. by rewrite Hcell. }
  erewrite bind_run by (by eapply store_handle_run).
  fold (nulled counter s).
  erewrite bind_run by reflexivity. cbv zeta.
  set (r := aeron_alloc (nulled counter s)). set (s2 := allocated r (nulled counter s)).
  simpl.
  destruct (Z.ltb_spec (alloc_rc r) 0) as [Hrc|Hrc]; [done|].
  destruct (N.eqb_spec (alloc_ptr r) NULL) as [Hp|Hp].
  { apply bind_undefined. unfold store_counter, deref. by rewrite Hp. }
  assert (deref (counters s2) (alloc_ptr r) = Some (alloc_block r)) as Hblock.
  { subst s2. unfold allocated; simpl.
    destruct (Z.ltb_spec (alloc_rc r) 0); [lia|].
    destruct (N.eqb_spec (alloc_ptr r) NULL); [done|]. simpl.
    by apply deref_insert_eq. }
  repeat (erewrite bind_run;
          [| eapply store_counter_run; first [exact Hblock | by apply deref_stored]]).
  pose proof Hcell as [Hcounter _]%deref_Some.
  erewrite bind_run.
  2:{ eapply store_handle_run with (old := NULL). simpl. by apply deref_insert_eq. }
  unfold mret, M_ret. do 2 f_equal.
  unfold with_handles, with_counters; simpl. f_equal.
  by rewrite !insert_insert_eq.
Qed.

(** A call that returned 0 had a valid cell for its result, and the
    allocator had answered with success and a block. *)
Lemma create_returned_0 `{Externals} counter cond rid cid addr s s' :
  aeron_counter_create counter cond rid cid addr s = Some (0, s') →
  let r := aeron_alloc (nulled counter s) in
  is_Some (deref (handles s) counter) ∧ 0 ≤ alloc_rc r ∧ alloc_ptr r ≠ NULL ∧
  s' = with_handles <[counter := alloc_ptr r]>
         (with_counters <[alloc_ptr r := initialised cond rid cid addr]>
            (allocated r (nulled counter s))).
Proof.
  rewrite create_run. destruct (deref (handles s) counter) as [old|]; [|done].
  cbv zeta. destruct (Z.ltb_spec (alloc_rc (aeron_alloc (nulled counter s))) 0); [done|].
  destruct (N.eqb_spec (alloc_ptr (aeron_alloc (nulled counter s))) NULL); [done|].
  intros [= <-]. by eauto.
Qed.

(** C3.  When the allocator answers with success and a block, create
    returns 0, the caller's cell holds the new handle, and the handle
    designates a counter of kind COUNTER that has exactly the registration
    id, the counter id, the address and the conductor given, and is not
    closed, whatever the block held before.  (By [create_returned_0] these
    are all the calls that return 0: with no cell for the result, or with
    an allocator that reports success without a block, the stores of create
    are undefined.) *)
Theorem create_success_reports_arguments `{Externals}
    (counter conductor_ : ptr) (registration_id_ counter_id_ : Z)
    (counter_addr_ : ptr) (s : state) :
  let r := aeron_alloc (nulled counter s) in
  is_Some (deref (handles s) counter) →
  0 ≤ alloc_rc r →
  alloc_ptr r ≠ NULL →
  ∃ s' c,
    aeron_counter_create counter conductor_ registration_id_ counter_id_
                         counter_addr_ s = Some (0, s')
    ∧ deref (handles s') counter = Some (alloc_ptr r)
    ∧ deref (counters s') (alloc_ptr r) = Some c
    ∧ registration_id c = registration_id_
    ∧ counter_id c = counter_id_
    ∧ counter_addr c = counter_addr_
    ∧ conductor c = conductor_
    ∧ is_closed c = false
    ∧ type (command_base c) = AERON_CLIENT_TYPE_COUNTER.
Proof.
  intros r [old Hcell] Hrc Hp.
  pose proof Hcell as [Hcounter _]%deref_Some.
  eexists _, (initialised conductor_ registration_id_ counter_id_ counter_addr_).
  split.
  - rewrite create_run, Hcell. cbv zeta. fold r.
    destruct (Z.ltb_spec (alloc_rc r) 0); [lia|].
    destruct (N.eqb_spec (alloc_ptr r) NULL); [done|]. reflexivity.
  - split; [by apply deref_insert_eq|]. split; [by apply deref_insert_eq|]. done.
Qed.

(** C4.  With a valid cell for the result, create returns -1 exactly when
    the allocator's return code is negative, and then the error recorded for
    the caller has the [errno] the allocator left as its code and, as its
    message, the text with that code and the system's description of it. *)
Theorem create_fails_iff_alloc_fails `{Externals}
    (counter conductor_ : ptr) (registration_id_ counter_id_ : Z)
    (counter_addr_ : ptr) (s : state) :
  let r := aeron_alloc (nulled counter s) in
  let create := aeron_counter_create counter conductor_ registration_id_
                                     counter_id_ counter_addr_ in
  is_Some (deref (handles s) counter) →
  ((∃ s', create s = Some (-1, s')) ↔ alloc_rc r < 0)
  ∧ (alloc_rc r < 0 →
     ∃ s', create s = Some (-1, s')
       ∧ aeron_errcode s' = alloc_errno r
       ∧ aeron_errmsg s' =
           "aeron_counter_create (" +:+ pretty (alloc_errno r) +:+ "): "
             +:+ strerror (alloc_errno r)).
Proof.
  intros r create [old Hcell]. subst create.
  rewrite create_run, Hcell. cbv zeta. fold r.
  destruct (Z.ltb_spec (alloc_rc r) 0) as [Hrc|Hrc].
  - split; [split; [done | eauto] |]. intros _. eexists. by split.
  - split; [| lia]. split; [| lia].
    destruct (N.eqb_spec (alloc_ptr r) NULL); by intros [s' ?].
Qed.

(** C9.  Whenever create returns with a result other than 0, the caller's
    cell holds the null pointer, whatever it held before; the null pointer
    was stored before the allocator was called: the allocator that refused
    was called in the state [nulled counter s]. *)
Theorem create_failure_leaves_null `{Externals}
    (counter conductor_ : ptr) (registration_id_ counter_id_ : Z)
    (counter_addr_ : ptr) (s s' : state) (rc : Z) :
  aeron_counter_create counter conductor_ registration_id_ counter_id_
                       counter_addr_ s = Some (rc, s') →
  rc ≠ 0 →
  deref (handles s') counter = Some NULL
  ∧ deref (handles (nulled counter s)) counter = Some NULL
  ∧ alloc_rc (aeron_alloc (nulled counter s)) < 0.
Proof.
  rewrite create_run.
  destruct (deref (handles s) counter) as [old|] eqn:Hcell; [|done].
  pose proof Hcell as [Hcounter _]%deref_Some.
  cbv zeta. destruct (Z.ltb_spec (alloc_rc (aeron_alloc (nulled counter s))) 0).
  - intros [= <- <-] _. split_and!; [| |done]; by apply deref_insert_eq.
  - destruct (N.eqb_spec (alloc_ptr (aeron_alloc (nulled counter s))) NULL); [done|].
    by intros [= <- _].
Qed.

(** ** The identifying fields of a handle *)

Section identity.
Context `{Externals}.

Lemma keeps_identity_ret {A} (a : A) : keeps_identity (mret a).
Proof. intros s a' s' p c' [= _ <-] Hc'. eauto. Qed.

Lemma keeps_identity_bind {A B} (m : M A) (f : A → M B) :
  keeps_identity m → (∀ a, keeps_identity (f a)) → keeps_identity (m ≫= f).
Proof.
  intros Hm Hf s b s2 p c2 (a & s1 & Em & Ef)%bind_inv Hc2.
  destruct (Hf a s1 b s2 p c2 Ef Hc2) as (c1 & Hc1 & E12).
  destruct (Hm s a s1 p c1 Em Hc1) as (c & Hc & E01).
  exists c. split; [done | congruence].
Qed.

Lemma load_counter_keeps_identity {A} p (field : aeron_counter_t → A) :
  keeps_identity (load_counter p field).
Proof.
  intros s a s' q c'. unfold load_counter.
  destruct (deref (counters s) p); [|done]. intros [= _ <-] Hc'. eauto.
Qed.

Lemma aeron_free_keeps_identity p : keeps_identity (aeron_free p).
Proof.
  intros s a s' q c'. unfold aeron_free.
  destruct (p =? NULL)%N; [intros [= _ <-]; by eauto|].
  destruct (counters s !! p); [|done]. intros [= _ <-]. simpl.
  intros [_ Hq]%lookup_delete_Some. eauto.
Qed.

Lemma delete_keeps_identity p : keeps_identity (aeron_counter_delete p).
Proof.
  apply keeps_identity_bind; [apply aeron_free_keeps_identity|].
  intros _. apply keeps_identity_ret.
Qed.

Section with_conductor.
Hypothesis conductor_keeps_identity :
  ∀ cond p, keeps_identity (aeron_client_conductor_async_close_counter cond p).

Lemma close_keeps_identity p : keeps_identity (aeron_counter_close p).
Proof.
  unfold aeron_counter_close. destruct (negb (p =? NULL)%N).
  - apply keeps_identity_bind; [apply load_counter_keeps_identity | done].
  - apply keeps_identity_ret.
Qed.

Lemma run_ops_keeps_identity os : keeps_identity (run_ops os).
Proof.
  induction os as [|o os IH]; simpl; [apply keeps_identity_ret|].
  apply keeps_identity_bind.
  - destruct o; [apply close_keeps_identity | apply delete_keeps_identity].
  - intros rc. apply keeps_identity_bind; [done|].
    intros rcs. apply keeps_identity_ret.
Qed.
End with_conductor.
End identity.

(** The command channel's close routine touches no counter. *)
Lemma submit_close_counter_keeps_identity cond p :
  keeps_identity (submit_close_counter cond p).
Proof.
  intros s a s' q c'. unfold submit_close_counter.
  destruct (deref (counters s) p); [|done].
  destruct (deref (conductors s) cond); [|done].
  destruct (submit _ _). intros [= _ <-]. simpl. eauto.
Qed.

(** C7.  The identifying fields of a handle are the ones given at its
    construction for as long as it lives: after a create that returned 0,
    and after any sequence of closes and deletes of any handles, the counter
    the created handle designates, if still live, has the registration id,
    the counter id, the address and the conductor that create was given.
    Close and delete store to none of these fields; the conductor's close
    routine, which close calls, is assumed not to either. *)
Theorem identity_fixed_at_construction `{Externals}
    (counter conductor_ : ptr) (registration_id_ counter_id_ : Z)
    (counter_addr_ : ptr) (os : list handle_op) (rcs : list Z)
    (s s1 s2 : state) (p : ptr) (c : aeron_counter_t) :
  (∀ cond q, keeps_identity (aeron_client_conductor_async_close_counter cond q)) →
  aeron_counter_create counter conductor_ registration_id_ counter_id_
                       counter_addr_ s = Some (0, s1) →
  deref (handles s1) counter = Some p →
  run_ops os s1 = Some (rcs, s2) →
  deref (counters s2) p = Some c →
  registration_id c = registration_id_ ∧ counter_id c = counter_id_
  ∧ counter_addr c = counter_addr_ ∧ conductor c = conductor_.
Proof.
  intros Hcond Hcreate Hp Hrun [Hnn Hc]%deref_Some.
  apply create_returned_0 in Hcreate as ([old Hcell] & _ & Hptr & ->).
  pose proof Hcell as [Hcounter _]%deref_Some.
  simpl in Hp. rewrite deref_insert_eq in Hp by done. injection Hp as <-.
  destruct (run_ops_keeps_identity Hcond os _ _ _ _ _ Hrun Hc) as (c1 & Hc1 & Eid).
  simpl in Hc1. rewrite lookup_insert_eq in Hc1. injection Hc1 as <-.
  unfold identity in Eid. simpl in Eid. injection Eid as <- <- <- <-. done.
Qed.

(** ** Closing a handle more than once *)

(** [aeron_counter_close] has no guard of its own (C5): what a second close
    does is what the conductor's routine does on its second call.  The
    statements below are for the close path of the specification,
    [close_request_counter], as that routine. *)





(** ** The operations on concrete inputs *)

Example scenario_created cap :
  @aeron_counter_create (pool_externals 1) 32%N 16%N 42 7 4096%N (client cap)
  = Some (0, scenario cap).
Proof. by vm_compute. Qed.

(** Scenario 2 and a second close, through the close path of the
    specification: both return 0, the handle is beyond Active after the
    first, and the channel holds one RemoveCounter command for registration
    id 42. *)
Example close_twice_scenario :
  @run_ops (guarded_externals 1) [Close 1%N; Close 1%N] (scenario 2) =
  Some ([0; 0],
        with_conductors <[16%N := mk_conductor [mk_command RemoveCounter 42] 2]>
          (with_counters (alter (set_is_closed true) 1%N) (scenario 2))).
Proof. by vm_compute. Qed.

(** The guard is the routine's, not close's: with a routine that only
    submits, close hands every call on, a second one included. *)
Example close_hands_every_call_on :
  @run_ops (pool_externals 1) [Close 1%N; Close 1%N] (scenario 2) =
  Some ([0; 0],
        with_conductors
          <[16%N := mk_conductor [mk_command RemoveCounter 42;
                                  mk_command RemoveCounter 42] 2]> (scenario 2)).
Proof. by vm_compute. Qed.

(** Scenario 3: close of the null handle queues nothing. *)
Example close_null_scenario :
  @aeron_counter_close (pool_externals 1) NULL (scenario 2) = Some (0, scenario 2).
Proof. reflexivity. Qed.

(** Delete right after close: the block is released while the close request
    is still queued at the conductor. *)
Example delete_while_close_pending :
  let E := pool_externals 1 in
  (aeron_counter_close 1%N;; aeron_counter_delete 1%N) (scenario 2) =
  Some (0, with_counters (delete 1%N)
             (with_conductors
                <[16%N := mk_conductor [mk_command RemoveCounter 42] 2]> (scenario 2))).
Proof. by vm_compute. Qed.

(** Create with the pool used up: -1, the cell nulled, the error recorded. *)
Example create_refused :
  @aeron_counter_create (pool_externals 0) 32%N 16%N 42 7 4096%N (client 2)
  = Some (-1, refused).
Proof. by vm_compute. Qed.

(** ** The theorems at the concrete inputs *)


Lemma create_success_reports_arguments_witness :
  let E := pool_externals 1 in
  (is_Some (deref (handles (client 2)) 32%N)
   ∧ 0 ≤ alloc_rc (aeron_alloc (nulled 32%N (client 2)))
   ∧ alloc_ptr (aeron_alloc (nulled 32%N (client 2))) ≠ NULL)
  ∧ ∃ s' c,
      aeron_counter_create 32%N 16%N 42 7 4096%N (client 2) = Some (0, s')
      ∧ deref (handles s') 32%N = Some 1%N
      ∧ deref (counters s') 1%N = Some c
      ∧ registration_id c = 42
      ∧ counter_id c = 7
      ∧ counter_addr c = 4096%N
      ∧ conductor c = 16%N
      ∧ is_closed c = false
      ∧ type (command_base c) = AERON_CLIENT_TYPE_COUNTER.
Proof.
  intros E.
  assert (is_Some (deref (handles (client 2)) 32%N)) as Hcell
    by (exists 99%N; reflexivity).
  assert (0 ≤ alloc_rc (aeron_alloc (nulled 32%N (client 2)))) as Hrc
    by (vm_compute; discriminate).
  assert (alloc_ptr (aeron_alloc (nulled 32%N (client 2))) ≠ NULL) as Hptr
    by (vm_compute; discriminate).
  split; [done|].
  exact (@create_success_reports_arguments E 32%N 16%N 42 7 4096%N (client 2)
           Hcell Hrc Hptr).
Defined.

Lemma create_fails_iff_alloc_fails_witness :
  let E := pool_externals 0 in
  is_Some (deref (handles (client 2)) 32%N)
  ∧ alloc_rc (aeron_alloc (nulled 32%N (client 2))) < 0
  ∧ ∃ s',
      aeron_counter_create 32%N 16%N 42 7 4096%N (client 2) = Some (-1, s')
      ∧ aeron_errcode s' = ENOMEM
      ∧ aeron_errmsg s' = "aeron_counter_create (12): Cannot allocate memory".
Proof.
  intros E.
  assert (is_Some (deref (handles (client 2)) 32%N)) as Hcell
    by (exists 99%N; reflexivity).
  assert (alloc_rc (aeron_alloc (nulled 32%N (client 2))) < 0) as Hrc
    by (vm_compute; reflexivity).
  split; [done|]. split; [done|].
  exact (proj2 (@create_fails_iff_alloc_fails E 32%N 16%N 42 7 4096%N (client 2)
                  Hcell) Hrc).
Defined.

Lemma close_is_conductor_submission_witness :
  let E := pool_externals 1 in
  let c := initialised 16%N 42 7 4096%N in
  deref (counters (scenario 2)) 1%N = Some c
  ∧ aeron_counter_close 1%N (scenario 2) = submit_close_counter 16%N 1%N (scenario 2).
Proof.
  intros E c. split; [reflexivity|].
  exact (@close_is_conductor_submission E 1%N c (scenario 2) eq_refl).
Defined.

Lemma delete_releases_unconditionally_witness :
  let E := pool_externals 1 in
  let c := initialised 16%N 42 7 4096%N in
  (deref (counters (scenario 2)) 1%N = Some c ∧ is_closed c = false)
  ∧ aeron_counter_delete 1%N (scenario 2)
      = Some (0, with_counters (delete 1%N) (scenario 2))
  ∧ deref (counters (with_counters (delete 1%N) (scenario 2))) 1%N = None.
Proof.
  intros E c. split; [by split|].
  exact (@delete_releases_unconditionally E 1%N c (scenario 2) eq_refl).
Defined.

Lemma identity_fixed_at_construction_witness :
  let E := pool_externals 1 in
  let os := [Close 1%N; Close NULL; Close 1%N; Delete NULL] in
  let rm := mk_command RemoveCounter 42 in
  let s2 := with_conductors <[16%N := mk_conductor [rm; rm] 2]> (scenario 2) in
  let c := initialised 16%N 42 7 4096%N in
  ((∀ cond q, keeps_identity (aeron_client_conductor_async_close_counter cond q))
   ∧ aeron_counter_create 32%N 16%N 42 7 4096%N (client 2) = Some (0, scenario 2)
   ∧ deref (handles (scenario 2)) 32%N = Some 1%N
   ∧ run_ops os (scenario 2) = Some ([0; 0; 0; 0], s2)
   ∧ deref (counters s2) 1%N = Some c)
  ∧ registration_id c = 42 ∧ counter_id c = 7
  ∧ counter_addr c = 4096%N ∧ conductor c = 16%N.
Proof.
  intros E os rm s2 c.
  assert (aeron_counter_create 32%N 16%N 42 7 4096%N (client 2)
          = Some (0, scenario 2)) as Hcreate by (vm_compute; reflexivity).
  assert (run_ops os (scenario 2) = Some ([0; 0; 0; 0], s2)) as Hrun
    by (vm_compute; reflexivity).
  split.
  - split_and!; [exact submit_close_counter_keeps_identity | done..].
  - exact (@identity_fixed_at_construction E 32%N 16%N 42 7 4096%N os [0; 0; 0; 0]
             (client 2) (scenario 2) s2 1%N c
             submit_close_counter_keeps_identity Hcreate eq_refl Hrun eq_refl).
Defined.

Lemma create_failure_leaves_null_witness :
  let E := pool_externals 0 in
  (aeron_counter_create 32%N 16%N 42 7 4096%N (client 2) = Some (-1, refused)
   ∧ -1 ≠ 0 ∧ deref (handles (client 2)) 32%N = Some 99%N)
  ∧ deref (handles refused) 32%N = Some NULL
  ∧ deref (handles (nulled 32%N (client 2))) 32%N = Some NULL
  ∧ alloc_rc (aeron_alloc (nulled 32%N (client 2))) < 0.
Proof.
  intros E.
  assert (aeron_counter_create 32%N 16%N 42 7 4096%N (client 2)
          = Some (-1, refused)) as Hcreate by (vm_compute; reflexivity).
  assert (-1 ≠ 0) as Hrc by discriminate.
  split; [by split_and!|].
  exact (@create_failure_leaves_null E 32%N 16%N 42 7 4096%N (client 2) refused (-1)
           Hcreate Hrc).
Defined.

(** ** Further properties of aeron_counter_create *)

(** The two ways in which a call of create returns, with the state each
    leaves. *)
Lemma create_returned `{Externals} counter cond rid cid addr s rc s' :
  aeron_counter_create counter cond rid cid addr s = Some (rc, s') →
  let r := aeron_alloc (nulled counter s) in
  is_Some (deref (handles s) counter)
  ∧ ((rc = 0 ∧ 0 ≤ alloc_rc r ∧ alloc_ptr r ≠ NULL
      ∧ s' = mk_state (<[alloc_ptr r := initialised cond rid cid addr]> (counters s))
                      (<[counter := alloc_ptr r]> (handles s)) (conductors s)
                      (alloc_errno r) (aeron_errcode s) (aeron_errmsg s))
     ∨ (rc = -1 ∧ alloc_rc r < 0
        ∧ s' = mk_state (counters s) (<[counter := NULL]> (handles s)) (conductors s)
                        (alloc_errno r) (alloc_errno r)
                        (create_err_text (alloc_errno r) (strerror (alloc_errno r))))).
Proof.
  rewrite create_run. destruct (deref (handles s) counter) as [old|]; [|done].
  cbv zeta. set (r := aeron_alloc (nulled counter s)).
  destruct (Z.ltb_spec (alloc_rc r) 0) as [Hrc|Hrc].
  - intros [= <- <-]. split; [by eauto|]. right. split_and!; [done..|].
    unfold with_error, allocated; simpl.
    destruct (Z.ltb_spec (alloc_rc r) 0); [done | lia].
  - destruct (N.eqb_spec (alloc_ptr r) NULL) as [Hp|Hp]; [done|].
    intros [= <- <-]. split; [by eauto|]. left. split_and!; [done..|].
    unfold with_handles, with_counters, allocated; simpl.
    destruct (Z.ltb_spec (alloc_rc r) 0); [lia|].
    destruct (N.eqb_spec (alloc_ptr r) NULL); [done|]. simpl.
    by rewrite !insert_insert_eq.
Qed.

(** X1.  A call of create that returns, returns 0 or -1 and nothing else,
    and the caller can tell the two apart by the cell alone: the result is 0
    exactly when the cell holds a non-null handle, and that handle then
    designates a live counter. *)
Theorem create_result_matches_handle `{Externals}
    (counter conductor_ : ptr) (registration_id_ counter_id_ : Z)
    (counter_addr_ : ptr) (s s' : state) (rc : Z) :
  aeron_counter_create counter conductor_ registration_id_ counter_id_
                       counter_addr_ s = Some (rc, s') →
  (rc = 0 ∨ rc = -1)
  ∧ (rc = 0 ↔ ∃ p, deref (handles s') counter = Some p ∧ p ≠ NULL)
  ∧ (∀ p, deref (handles s') counter = Some p → p ≠ NULL →
          is_Some (deref (counters s') p)).
Proof.
  intros ([old [Hcell _]%deref_Some] & [(-> & _ & Hp & ->) | (-> & _ & ->)])%create_returned;
    simpl.
  - split; [by left|]. rewrite deref_insert_eq by done. split.
    + split; [by eauto | done].
    + intros p [= <-] _. rewrite deref_insert_eq by done. by eauto.
  - split; [by right|]. rewrite deref_insert_eq by done. split.
    + split; [done|]. by intros (p & [= <-] & ?).
    + by intros p [= <-] ?.
Qed.

(** X2.  Create has no defined behaviour exactly when its first argument
    designates no cell, the null pointer included (the store of the null
    handle comes first and is not guarded), or when the allocator reports
    success without a block (the block is not checked before the stores). *)
Theorem create_undefined_iff `{Externals}
    (counter conductor_ : ptr) (registration_id_ counter_id_ : Z)
    (counter_addr_ : ptr) (s : state) :
  let r := aeron_alloc (nulled counter s) in
  (aeron_counter_create counter conductor_ registration_id_ counter_id_
                        counter_addr_ s = None
   ↔ deref (handles s) counter = None ∨ (0 ≤ alloc_rc r ∧ alloc_ptr r = NULL))
  ∧ aeron_counter_create NULL conductor_ registration_id_ counter_id_
                         counter_addr_ s = None.
Proof.
  intros r. split; [|by rewrite create_run].
  rewrite create_run. destruct (deref (handles s) counter) as [old|].
  - cbv zeta. fold r. destruct (Z.ltb_spec (alloc_rc r) 0) as [Hrc|Hrc].
    + split; [done|]. intros [? | [? _]]; [done | lia].
    + destruct (N.eqb_spec (alloc_ptr r) NULL) as [Hp|Hp].
      * split; [by right | done].
      * split; [done|]. by intros [? | [_ ?]].
  - split; [by left | done].
Qed.

(** X3.  What create leaves alone.  Whatever it returns, create changes no
    cell but the one for the result, no counter but the one at the address
    the allocator answered with, and no conductor: it submits nothing.  When
    it returns 0 the recorded error is the one recorded before; when it
    fails no counter has changed at all. *)
Theorem create_frame `{Externals}
    (counter conductor_ : ptr) (registration_id_ counter_id_ : Z)
    (counter_addr_ : ptr) (s s' : state) (rc : Z) :
  aeron_counter_create counter conductor_ registration_id_ counter_id_
                       counter_addr_ s = Some (rc, s') →
  (∀ q, q ≠ counter → handles s' !! q = handles s !! q)
  ∧ (∀ q, q ≠ alloc_ptr (aeron_alloc (nulled counter s)) →
          counters s' !! q = counters s !! q)
  ∧ conductors s' = conductors s
  ∧ (rc = 0 → aeron_errcode s' = aeron_errcode s ∧ aeron_errmsg s' = aeron_errmsg s)
  ∧ (rc ≠ 0 → counters s' = counters s).
Proof.
  intros (_ & [(-> & _ & _ & ->) | (-> & _ & ->)])%create_returned; simpl.
  - split_and!; [| |done..].
    + intros q Hq. by rewrite lookup_insert_ne.
    + intros q Hq. by rewrite lookup_insert_ne.
  - split_and!; [|done..].
    intros q Hq. by rewrite lookup_insert_ne.
Qed.

(** X4.  Close of a handle that create has just returned calls the
    conductor's routine with the conductor that was given to create, and
    with that handle: the conductor is read from the counter, and create
    stores it there unchecked (a null conductor included). *)
Theorem close_after_create_uses_given_conductor `{Externals}
    (counter conductor_ : ptr) (registration_id_ counter_id_ : Z)
    (counter_addr_ : ptr) (s s1 : state) (p : ptr) :
  aeron_counter_create counter conductor_ registration_id_ counter_id_
                       counter_addr_ s = Some (0, s1) →
  deref (handles s1) counter = Some p →
  aeron_counter_close p s1 =
  aeron_client_conductor_async_close_counter conductor_ p s1.
Proof.
  intros ([old [Hcell _]%deref_Some] & [(_ & _ & Hp & ->) | (? & _)])%create_returned;
    [|done].
  simpl. rewrite deref_insert_eq by done. intros [= <-].
  unfold aeron_counter_close.
  destruct (N.eqb_spec (alloc_ptr (aeron_alloc (nulled counter s))) NULL); [done|].
  simpl. erewrite bind_run; [reflexivity|].
  unfold load_counter. simpl. by rewrite deref_insert_eq.
Qed.

(** X5.  Create and then delete of the new handle is a round trip on the
    counters: when the allocator answered with an address that was not live,
    delete returns 0 and the live counters are exactly those from before the
    create.  Delete does not reset the caller's cell: it still holds the
    handle, which now designates nothing. *)
Theorem delete_after_create_restores_counters `{Externals}
    (counter conductor_ : ptr) (registration_id_ counter_id_ : Z)
    (counter_addr_ : ptr) (s s1 : state) (p : ptr) :
  aeron_counter_create counter conductor_ registration_id_ counter_id_
                       counter_addr_ s = Some (0, s1) →
  deref (handles s1) counter = Some p →
  counters s !! p = None →
  ∃ s2, aeron_counter_delete p s1 = Some (0, s2)
        ∧ counters s2 = counters s
        ∧ deref (handles s2) counter = Some p
        ∧ deref (counters s2) p = None.
Proof.
  intros ([old [Hcell _]%deref_Some] & [(_ & _ & Hp & ->) | (? & _)])%create_returned;
    [|done].
  simpl. rewrite deref_insert_eq by done. intros [= <-] Hfresh.
  set (p := alloc_ptr (aeron_alloc (nulled counter s))) in *.
  match goal with |- ∃ s2, _ ?s1 = _ ∧ _ => exists (with_counters (delete p) s1) end.
  split.
  - unfold aeron_counter_delete, aeron_free, mbind, M_bind. simpl.
    destruct (N.eqb_spec p NULL); [done|].
    by rewrite lookup_insert_eq.
  - simpl. rewrite delete_insert_eq, delete_id by done.
    split_and!; [done | by apply deref_insert_eq |].
    unfold deref. by destruct (N.eqb_spec p NULL).
Qed.

(** X6.  A handle that delete has released is not to be used again: after
    delete of a non-null handle has returned, both close and a second delete
    of that handle have no defined behaviour, whatever the conductor's
    routine is, since close reads the conductor from the released block before
    it calls anything. *)
Theorem use_after_delete_undefined `{Externals} (counter : ptr)
    (s s' : state) (rc : Z) :
  counter ≠ NULL →
  aeron_counter_delete counter s = Some (rc, s') →
  aeron_counter_close counter s' = None
  ∧ aeron_counter_delete counter s' = None.
Proof.
  intros Hp. unfold aeron_counter_delete at 1. unfold aeron_free, mbind, M_bind.
  destruct (N.eqb_spec counter NULL) as [?|_]; [done|].
  destruct (counters s !! counter); [|done]. intros [= _ <-].
  assert (deref (counters (with_counters (delete counter) s)) counter = None) as Hgone.
  { unfold deref. destruct (N.eqb_spec counter NULL); [done|]. apply lookup_delete_eq. }
  split.
  - unfold aeron_counter_close.
    destruct (N.eqb_spec counter NULL) as [?|_]; [done|]. simpl.
    apply bind_undefined. unfold load_counter. by rewrite Hgone.
  - unfold aeron_counter_delete. apply bind_undefined. unfold aeron_free.
    destruct (N.eqb_spec counter NULL) as [?|_]; [done|].
    simpl. by rewrite lookup_delete_eq.
Qed.

(** X7.  A further create does not disturb a handle created before: when the
    second call is refused, or the allocator answers it with another address,
    the first handle still designates its counter with every field as
    create left it, and its cell still holds it unless the second call was
    given the same cell.  Create compares no ids: this holds also when both
    counters are created under one registration id. *)
Theorem second_create_keeps_first_handle `{Externals}
    (counter1 conductor1 : ptr) (registration_id1 counter_id1 : Z) (counter_addr1 : ptr)
    (counter2 conductor2 : ptr) (registration_id2 counter_id2 : Z) (counter_addr2 : ptr)
    (s s1 s2 : state) (p1 : ptr) (rc2 : Z) :
  aeron_counter_create counter1 conductor1 registration_id1 counter_id1
                       counter_addr1 s = Some (0, s1) →
  deref (handles s1) counter1 = Some p1 →
  aeron_counter_create counter2 conductor2 registration_id2 counter_id2
                       counter_addr2 s1 = Some (rc2, s2) →
  rc2 ≠ 0 ∨ alloc_ptr (aeron_alloc (nulled counter2 s1)) ≠ p1 →
  deref (counters s2) p1 =
    Some (initialised conductor1 registration_id1 counter_id1 counter_addr1)
  ∧ (counter2 ≠ counter1 → deref (handles s2) counter1 = Some p1).
Proof.
  intros Hc1 Hp1 Hc2 Hother.
  assert (deref (counters s1) p1 =
          Some (initialised conductor1 registration_id1 counter_id1 counter_addr1))
    as Hlive.
  { apply create_returned in Hc1
      as ([old [Hcell _]%deref_Some] & [(_ & _ & Hp & ->) | (? & _)]); [|done].
    simpl in *. rewrite deref_insert_eq in Hp1 by done. injection Hp1 as <-.
    by apply deref_insert_eq. }
  apply deref_Some in Hlive as [Hnn Hlive]. apply deref_Some in Hp1 as [Hcell1 Hp1].
  set (r2 := aeron_alloc (nulled counter2 s1)) in *.
  apply create_returned in Hc2 as (_ & [(-> & _ & _ & ->) | (_ & _ & ->)]); simpl.
  - destruct Hother as [? | Hother]; [done|]. split.
    + apply deref_Some. split; [done|]. by rewrite lookup_insert_ne.
    + intros Hne. apply deref_Some. split; [done|]. by rewrite lookup_insert_ne.
  - split.
    + by apply deref_Some.
    + intros Hne. apply deref_Some. split; [done|]. by rewrite lookup_insert_ne.
Qed.

(** ** Counters stay open *)

Section open.
Context `{Externals}.

Lemma keeps_counters_ret {A} (a : A) : keeps_counters (mret a).
Proof. by intros s a' s' p c [= _ <-]. Qed.

Lemma keeps_counters_bind {A B} (m : M A) (f : A → M B) :
  keeps_counters m → (∀ a, keeps_counters (f a)) → keeps_counters (m ≫= f).
Proof.
  intros Hm Hf s b s2 p c (a & s1 & Em & Ef)%bind_inv Hc.
  apply (Hm s a s1 p c Em). by apply (Hf a s1 b s2 p c Ef).
Qed.

Lemma load_counter_keeps_counters {A} p (field : aeron_counter_t → A) :
  keeps_counters (load_counter p field).
Proof.
  intros s a s' q c. unfold load_counter.
  destruct (deref (counters s) p); [|done]. by intros [= _ <-].
Qed.

Lemma delete_keeps_counters p : keeps_counters (aeron_counter_delete p).
Proof.
  apply keeps_counters_bind; [|intros _; apply keeps_counters_ret].
  intros s a s' q c. unfold aeron_free.
  destruct (p =? NULL)%N; [by intros [= _ <-]|].
  destruct (counters s !! p); [|done]. intros [= _ <-]. simpl.
  by intros [_ Hq]%lookup_delete_Some.
Qed.

Lemma keeps_counters_open {A} (m : M A) s a s' :
  keeps_counters m → m s = Some (a, s') → all_open s → all_open s'.
Proof. intros Hm Em Hopen p c Hc. apply (Hopen p c). by apply (Hm s a s' p c Em). Qed.

Lemma create_keeps_open counter cond rid cid addr s rc s' :
  aeron_counter_create counter cond rid cid addr s = Some (rc, s') →
  all_open s → all_open s'.
Proof.
  intros (_ & [(_ & _ & _ & ->) | (_ & _ & ->)])%create_returned Hopen p c; simpl.
  - intros [[_ <-] | [_ Hc]]%lookup_insert_Some; [done | by eauto].
  - by eauto.
Qed.
End open.

(** The command channel's close routine leaves every counter as it was. *)
Lemma submit_close_counter_keeps_counters cond p :
  keeps_counters (submit_close_counter cond p).
Proof.
  intros s a s' q c. unfold submit_close_counter.
  destruct (deref (counters s) p); [|done].
  destruct (deref (conductors s) cond); [|done].
  destruct (submit _ _). by intros [= _ <-].
Qed.

(** X8.  No routine of the file marks a counter closed.  Over any sequence
    of calls of create, close and delete, with any arguments and any
    results, that starts where every live counter is of kind COUNTER and not
    closed, every live counter at the end is of kind COUNTER and not closed:
    create stores [false], close and delete store to no counter; the
    conductor's routine, which close calls, is assumed to leave the counters
    it keeps as they are. *)
Theorem calls_keep_counters_open `{Externals} (ks : list call) (rcs : list Z)
    (s s' : state) :
  (∀ cond q, keeps_counters (aeron_client_conductor_async_close_counter cond q)) →
  all_open s →
  run_calls ks s = Some (rcs, s') →
  all_open s'.
Proof.
  intros Hcond. revert rcs s.
  induction ks as [|k ks IH]; intros rcs s Hopen; simpl.
  - by intros [= _ <-].
  - intros (rc & s1 & Hk & (rcs' & s2 & Hks & [= _ <-])%bind_inv)%bind_inv.
    apply (IH rcs' s1); [|done].
    destruct k as [counter cond rid cid addr | counter | counter]; simpl in Hk.
    + by eapply create_keeps_open.
    + eapply keeps_counters_open; [|done..].
      unfold aeron_counter_close. destruct (negb (counter =? NULL)%N).
      * apply keeps_counters_bind; [apply load_counter_keeps_counters | done].
      * apply keeps_counters_ret.
    + eapply keeps_counters_open; [apply delete_keeps_counters | done..].
Qed.

(** X9.  Cleaning up after a refused create is safe: the handle that a
    create with a result other than 0 leaves in the caller's cell can be
    passed to close and to delete, and each returns 0 and changes nothing. *)
Theorem cleanup_after_failed_create `{Externals}
    (counter conductor_ : ptr) (registration_id_ counter_id_ : Z)
    (counter_addr_ : ptr) (s s' : state) (rc : Z) (p : ptr) :
  aeron_counter_create counter conductor_ registration_id_ counter_id_
                       counter_addr_ s = Some (rc, s') →
  rc ≠ 0 →
  deref (handles s') counter = Some p →
  aeron_counter_close p s' = Some (0, s')
  ∧ aeron_counter_delete p s' = Some (0, s').
Proof.
  intros ([old [Hcell _]%deref_Some] & [(-> & _) | (_ & _ & ->)])%create_returned Hrc;
    [done|].
  simpl. rewrite deref_insert_eq by done. by intros [= <-].
Qed.

(** ** The further properties at concrete inputs *)

Lemma create_result_matches_handle_witness :
  let E := pool_externals 1 in
  aeron_counter_create 32%N 16%N 42 7 4096%N (client 2) = Some (0, scenario 2)
  ∧ ((0 = 0 ∨ 0 = -1)
     ∧ (0 = 0 ↔ ∃ p, deref (handles (scenario 2)) 32%N = Some p ∧ p ≠ NULL)
     ∧ (∀ p, deref (handles (scenario 2)) 32%N = Some p → p ≠ NULL →
             is_Some (deref (counters (scenario 2)) p))).
Proof.
  intros E.
  assert (aeron_counter_create 32%N 16%N 42 7 4096%N (client 2)
          = Some (0, scenario 2)) as Hcreate by (vm_compute; reflexivity).
  split; [done|].
  exact (@create_result_matches_handle E 32%N 16%N 42 7 4096%N (client 2)
           (scenario 2) 0 Hcreate).
Defined.

Lemma create_frame_witness :
  let E := pool_externals 1 in
  aeron_counter_create 32%N 16%N 42 7 4096%N (client 2) = Some (0, scenario 2)
  ∧ ((∀ q, q ≠ 32%N → handles (scenario 2) !! q = handles (client 2) !! q)
     ∧ (∀ q, q ≠ alloc_ptr (aeron_alloc (nulled 32%N (client 2))) →
             counters (scenario 2) !! q = counters (client 2) !! q)
     ∧ conductors (scenario 2) = conductors (client 2)
     ∧ (0 = 0 → aeron_errcode (scenario 2) = aeron_errcode (client 2)
                ∧ aeron_errmsg (scenario 2) = aeron_errmsg (client 2))
     ∧ (0 ≠ 0 → counters (scenario 2) = counters (client 2))).
Proof.
  intros E.
  assert (aeron_counter_create 32%N 16%N 42 7 4096%N (client 2)
          = Some (0, scenario 2)) as Hcreate by (vm_compute; reflexivity).
  split; [done|].
  exact (@create_frame E 32%N 16%N 42 7 4096%N (client 2) (scenario 2) 0 Hcreate).
Defined.

Lemma close_after_create_uses_given_conductor_witness :
  let E := pool_externals 1 in
  (aeron_counter_create 32%N 16%N 42 7 4096%N (client 2) = Some (0, scenario 2)
   ∧ deref (handles (scenario 2)) 32%N = Some 1%N)
  ∧ aeron_counter_close 1%N (scenario 2) = submit_close_counter 16%N 1%N (scenario 2).
Proof.
  intros E.
  assert (aeron_counter_create 32%N 16%N 42 7 4096%N (client 2)
          = Some (0, scenario 2)) as Hcreate by (vm_compute; reflexivity).
  split; [by split|].
  exact (@close_after_create_uses_given_conductor E 32%N 16%N 42 7 4096%N
           (client 2) (scenario 2) 1%N Hcreate eq_refl).
Defined.

Lemma delete_after_create_restores_counters_witness :
  let E := pool_externals 1 in
  (aeron_counter_create 32%N 16%N 42 7 4096%N (client 2) = Some (0, scenario 2)
   ∧ deref (handles (scenario 2)) 32%N = Some 1%N
   ∧ counters (client 2) !! 1%N = None)
  ∧ ∃ s2, aeron_counter_delete 1%N (scenario 2) = Some (0, s2)
          ∧ counters s2 = counters (client 2)
          ∧ deref (handles s2) 32%N = Some 1%N
          ∧ deref (counters s2) 1%N = None.
Proof.
  intros E.
  assert (aeron_counter_create 32%N 16%N 42 7 4096%N (client 2)
          = Some (0, scenario 2)) as Hcreate by (vm_compute; reflexivity).
  split; [by split_and!|].
  exact (@delete_after_create_restores_counters E 32%N 16%N 42 7 4096%N
           (client 2) (scenario 2) 1%N Hcreate eq_refl eq_refl).
Defined.

Lemma use_after_delete_undefined_witness :
  let E := pool_externals 1 in
  let s' := with_counters (delete 1%N) (scenario 2) in
  (1%N ≠ NULL ∧ aeron_counter_delete 1%N (scenario 2) = Some (0, s'))
  ∧ aeron_counter_close 1%N s' = None
  ∧ aeron_counter_delete 1%N s' = None.
Proof.
  intros E s'.
  assert (1%N ≠ NULL) as Hp by discriminate.
  assert (aeron_counter_delete 1%N (scenario 2) = Some (0, s')) as Hdel
    by (vm_compute; reflexivity).
  split; [by split|].
  exact (@use_after_delete_undefined E 1%N (scenario 2) s' 0 Hp Hdel).
Defined.

Lemma second_create_keeps_first_handle_witness :
  let E := pool_externals 2 in
  let first := initialised 16%N 42 7 4096%N in
  let second := initialised 16%N 42 8 4104%N in
  let s1 := mk_state {[ 1%N := first ]} {[ 32%N := 1%N; 40%N := 98%N ]}
                     {[ 16%N := mk_conductor [] 2 ]} 0 0 "" in
  let s2 := mk_state {[ 1%N := first; 2%N := second ]} {[ 32%N := 1%N; 40%N := 2%N ]}
                     {[ 16%N := mk_conductor [] 2 ]} 0 0 "" in
  (aeron_counter_create 32%N 16%N 42 7 4096%N (client2 2) = Some (0, s1)
   ∧ deref (handles s1) 32%N = Some 1%N
   ∧ aeron_counter_create 40%N 16%N 42 8 4104%N s1 = Some (0, s2)
   ∧ (0 ≠ 0 ∨ alloc_ptr (aeron_alloc (nulled 40%N s1)) ≠ 1%N))
  ∧ deref (counters s2) 1%N = Some first
  ∧ (40%N ≠ 32%N → deref (handles s2) 32%N = Some 1%N).
Proof.
  intros E first second s1 s2.
  assert (aeron_counter_create 32%N 16%N 42 7 4096%N (client2 2) = Some (0, s1))
    as H1 by (vm_compute; reflexivity).
  assert (aeron_counter_create 40%N 16%N 42 8 4104%N s1 = Some (0, s2))
    as H2 by (vm_compute; reflexivity).
  assert (0 ≠ 0 ∨ alloc_ptr (aeron_alloc (nulled 40%N s1)) ≠ 1%N) as Hother
    by (right; vm_compute; discriminate).
  split; [by split_and!|].
  exact (@second_create_keeps_first_handle E 32%N 16%N 42 7 4096%N
           40%N 16%N 42 8 4104%N (client2 2) s1 s2 1%N 0 H1 eq_refl H2 Hother).
Defined.

Lemma calls_keep_counters_open_witness :
  let E := pool_externals 2 in
  let ks := [CallCreate 32%N 16%N 42 7 4096%N; CallClose 1%N;
             CallCreate 40%N 16%N 43 8 4104%N; CallDelete 1%N;
             CallCreate 32%N 16%N 44 9 4112%N; CallCreate 40%N 16%N 45 10 4120%N;
             CallClose NULL] in
  let s' := mk_state {[ 2%N := initialised 16%N 43 8 4104%N;
                        3%N := initialised 16%N 44 9 4112%N ]}
                     {[ 32%N := 3%N; 40%N := NULL ]}
                     {[ 16%N := mk_conductor [mk_command RemoveCounter 42] 2 ]}
                     ENOMEM ENOMEM
                     "aeron_counter_create (12): Cannot allocate memory" in
  ((∀ cond q, keeps_counters (aeron_client_conductor_async_close_counter cond q))
   ∧ all_open (client2 2)
   ∧ run_calls ks (client2 2) = Some ([0; 0; 0; 0; 0; -1; 0], s'))
  ∧ all_open s'.
Proof.
  intros E ks s'.
  assert (all_open (client2 2)) as Hopen by (intros p c Hc; discriminate Hc).
  assert (run_calls ks (client2 2) = Some ([0; 0; 0; 0; 0; -1; 0], s')) as Hrun
    by (vm_compute; reflexivity).
  split; [split_and!; [exact submit_close_counter_keeps_counters | done..]|].
  exact (@calls_keep_counters_open E ks [0; 0; 0; 0; 0; -1; 0] (client2 2) s'
           submit_close_counter_keeps_counters Hopen Hrun).
Defined.

Lemma cleanup_after_failed_create_witness :
  let E := pool_externals 0 in
  (aeron_counter_create 32%N 16%N 42 7 4096%N (client 2) = Some (-1, refused)
   ∧ -1 ≠ 0
   ∧ deref (handles refused) 32%N = Some NULL)
  ∧ aeron_counter_close NULL refused = Some (0, refused)
  ∧ aeron_counter_delete NULL refused = Some (0, refused).
Proof.
  intros E.
  assert (aeron_counter_create 32%N 16%N 42 7 4096%N (client 2)
          = Some (-1, refused)) as Hcreate by (vm_compute; reflexivity).
  assert (-1 ≠ 0) as Hrc by discriminate.
  split; [by split_and!|].
  exact (@cleanup_after_failed_create E 32%N 16%N 42 7 4096%N (client 2) refused
           (-1) NULL Hcreate Hrc eq_refl).
Defined.
